(** * ieeg-clipper: the validated-metadata pipeline of
      [src/ieeg_metadata_validated.py]

    A shallow embedding of the class [IEEGmetadataValidated] and of the
    batch loop under [__main__], with the properties of its annotation
    normaliser, its temporal localiser, its per-session orchestration and
    its writer.

    Conventions of the model.
    - Python values that travel through tables and dictionaries are
      [pyval]s.  The only floating-point quantities the code computes
      with are the seizure times in seconds and the local [t] of
      [timestamp_clips]; they are taken as exact rationals ([Q]), so a
      product such as [start * 1e6] is the exact product, and neither
      binary64 rounding nor non-finite floats are represented.
    - A pandas [DataFrame] is an index plus an ordered list of named
      columns.  The clips table, which [timestamp_clips] updates in
      place, lives in a store and is passed by reference; tables that are
      never mutated are passed by value.
    - Effects are explicit: a computation takes a [World] (the store of
      mutable tables, the file system, the standard output) and returns
      an outcome together with the world it leaves behind.  A Python
      exception is the outcome [Raise]; effects performed before the
      exception stay in the world.
    - Methods inherited from [IEEGmetadata] and [ManualValidation], whose
      code is not part of this file, are the fields of two classes. *)

From Stdlib Require Import String Ascii DecimalString.
From Stdlib Require Import List ZArith QArith Qround Bool Arith Lia.
From Stdlib Require Import Permutation Sorted.
Import ListNotations.

Local Open Scope string_scope.
Local Open Scope list_scope.
Local Open Scope Z_scope.

(** ** Python values *)

Inductive pyval : Type :=
| PNone
| PNaN
| PBool (b : bool)
| PInt (n : Z)
| PStr (s : string).

(** [str(n)] for a Python int. *)
Definition string_of_Z (n : Z) : string :=
  NilZero.string_of_int (Z.to_int n).

(** [str(v)], as used by an f-string. *)
Definition py_str (v : pyval) : string :=
  match v with
  | PNone => "None"
  | PNaN => "nan"
  | PBool true => "True"
  | PBool false => "False"
  | PInt n => string_of_Z n
  | PStr s => s
  end.

(** [pd.isna(v)] on a scalar. *)
Definition pd_isna (v : pyval) : bool :=
  match v with
  | PNone | PNaN => true
  | _ => false
  end.

(** ** Exceptions and outcomes *)

(** [Exception cls msg] is an instance of a subclass of Python's
    [Exception]; [BaseException cls msg] is one that is not
    ([KeyboardInterrupt], [SystemExit]).  [msg] is [str(e)]. *)
Inductive exn : Type :=
| Exception (cls msg : string)
| BaseException (cls msg : string).

Inductive outcome (A : Type) : Type :=
| Val (a : A)
| Raise (e : exn).

Arguments Val {A} a.
Arguments Raise {A} e.

Definition obind {A B : Type} (o : outcome A) (k : A -> outcome B) : outcome B :=
  match o with
  | Val a => k a
  | Raise e => Raise e
  end.

(** ** Tables *)

(** A pandas index: an optional name and one label per row. *)
Record Index : Type := mkIndex {
  idx_name : option string;
  idx_labels : list pyval
}.

(** A pandas DataFrame: the row index and the columns, in column order. *)
Record DataFrame : Type := mkDataFrame {
  df_index : Index;
  df_columns : list (string * list pyval)
}.

Definition RangeIndex (n : nat) : Index :=
  mkIndex None (map (fun i => PInt (Z.of_nat i)) (seq 0 n)).

(** [len(df)] *)
Definition nrows (df : DataFrame) : nat := length (idx_labels (df_index df)).

Definition column_names (df : DataFrame) : list string := map fst (df_columns df).

(** Every column has one value per row: the invariant pandas keeps. *)
Definition well_formed (df : DataFrame) : Prop :=
  Forall (fun c => length (snd c) = nrows df) (df_columns df).

Fixpoint assoc {A : Type} (k : string) (l : list (string * A)) : option A :=
  match l with
  | [] => None
  | (k', v) :: l' => if String.eqb k k' then Some v else assoc k l'
  end.

(** [df[name]] / [df.name] *)
Definition get_column (name : string) (df : DataFrame) : option (list pyval) :=
  assoc name (df_columns df).


(** Row [i] as the list of its named cells, in column order. *)
Definition row (df : DataFrame) (i : nat) : list (string * pyval) :=
  map (fun c => (fst c, nth i (snd c) PNaN)) (df_columns df).

(** [df.empty]: no rows or no columns. *)
Definition df_empty (df : DataFrame) : bool :=
  (nrows df =? 0)%nat || (length (df_columns df) =? 0)%nat.

(** Assignment to a dictionary key or a DataFrame column: an existing key
    keeps its position, a new one goes last. *)
Fixpoint setitem {A : Type} (k : string) (v : A) (l : list (string * A))
  : list (string * A) :=
  match l with
  | [] => [(k, v)]
  | (k', v') :: l' =>
      if String.eqb k k' then (k, v) :: l' else (k', v') :: setitem k v l'
  end.

(** [df[name] = values] *)
Definition set_column (name : string) (values : list pyval) (df : DataFrame)
  : DataFrame :=
  mkDataFrame (df_index df) (setitem name values (df_columns df)).

(** [df.index = idx] *)
Definition set_index (idx : Index) (df : DataFrame) : DataFrame :=
  mkDataFrame idx (df_columns df).

(** A Python dict with string keys, in insertion order. *)
Definition dict : Type := list (string * pyval).

(** [pd.DataFrame(d)] for a dict of lists: the columns in the dict's order
    under a fresh [RangeIndex]; lists of different lengths are refused. *)
Definition DataFrame_of_dict (d : list (string * list pyval)) : outcome DataFrame :=
  match d with
  | [] => Val (mkDataFrame (RangeIndex 0) [])
  | (_, c0) :: _ =>
      if forallb (fun c => (length (snd c) =? length c0)%nat) d
      then Val (mkDataFrame (RangeIndex (length c0)) d)
      else Raise (Exception "ValueError" "All arrays must be of the same length")
  end.

(** Rows picked by position: [df.take(indexer)], labels travelling with
    their rows. *)
Definition take (indexer : list nat) (xs : list pyval) : list pyval :=
  map (fun i => nth i xs PNaN) indexer.

Definition take_rows (indexer : list nat) (df : DataFrame) : DataFrame :=
  mkDataFrame
    (mkIndex (idx_name (df_index df)) (take indexer (idx_labels (df_index df))))
    (map (fun c => (fst c, take indexer (snd c))) (df_columns df)).

(** ** Sorting

    [sort_values(by=...)] is called with pandas' default
    [kind='quicksort'], which pandas and numpy document as not stable;
    the order it gives to equal keys depends on the numpy build.  The
    sort is therefore taken by its contract: [argsort keys] lists every
    row position exactly once, in an order that makes the keys
    non-decreasing. *)
Class ArgSort : Type := mkArgSort {
  argsort : list Z -> list nat;
  argsort_perm : forall ks, Permutation (argsort ks) (seq 0 (length ks));
  argsort_sorted :
    forall ks, StronglySorted Z.le (map (fun i => nth i ks 0) (argsort ks))
}.

Fixpoint int_keys (xs : list pyval) : option (list Z) :=
  match xs with
  | [] => Some []
  | PInt n :: xs' =>
      match int_keys xs' with
      | Some ks => Some (n :: ks)
      | None => None
      end
  | _ :: _ => None
  end.

(** [df.sort_values(by=name)] on an integer column, the only use the
    code makes of it.  Other key types are outside the model. *)
Definition sort_values `{ArgSort} (name : string) (df : DataFrame)
  : outcome DataFrame :=
  match get_column name df with
  | None => Raise (Exception "KeyError" name)
  | Some col =>
      match int_keys col with
      | None => Raise (Exception "TypeError" "sort key is not an integer column")
      | Some ks => Val (take_rows (argsort ks) df)
      end
  end.

(** [pd.concat([a, b], ignore_index=True)]: the rows of [a] then the rows
    of [b] under a fresh [RangeIndex]; the columns of [a], then those
    only [b] has; a column one side lacks is filled with NaN there. *)
Definition column_or_nan (name : string) (df : DataFrame) : list pyval :=
  match get_column name df with
  | Some col => col
  | None => repeat PNaN (nrows df)
  end.

Definition concat_names (a b : DataFrame) : list string :=
  column_names a ++
  filter (fun n => negb (existsb (String.eqb n) (column_names a))) (column_names b).

Definition pd_concat_ignore_index (a b : DataFrame) : DataFrame :=
  mkDataFrame
    (RangeIndex (nrows a + nrows b))
    (map (fun n => (n, column_or_nan n a ++ column_or_nan n b)) (concat_names a b)).

(** ** The world: mutable tables, files, standard output *)

Definition ref : Type := nat.

(** A path, as its components below the root the caller fixes. *)
Definition Path : Type := list string.

Record FileSystem : Type := mkFS {
  fs_dirs : list Path;
  fs_files : list (Path * string)
}.

Record World : Type := mkWorld {
  frames : list DataFrame;
  fs : FileSystem;
  stdout : list string
}.

Definition M (A : Type) : Type := World -> outcome A * World.

Definition ret {A : Type} (a : A) : M A := fun w => (Val a, w).

Definition raise {A : Type} (e : exn) : M A := fun w => (Raise e, w).

Definition bind {A B : Type} (m : M A) (k : A -> M B) : M B :=
  fun w =>
    match m w with
    | (Val a, w') => k a w'
    | (Raise e, w') => (Raise e, w')
    end.

Definition lift {A : Type} (o : outcome A) : M A := fun w => (o, w).

Notation "x <- m ;; k" := (bind m (fun x => k))
  (at level 61, m at next level, right associativity).
Notation "m ;;; k" := (bind m (fun _ => k))
  (at level 61, right associativity).

(** [for x in xs: body(x)] *)
Fixpoint for_each {A : Type} (xs : list A) (body : A -> M unit) : M unit :=
  match xs with
  | [] => ret tt
  | x :: xs' => body x ;;; for_each xs' body
  end.

(** [print(line)] *)
Definition print (line : string) : M unit :=
  fun w => (Val tt, mkWorld (frames w) (fs w) (stdout w ++ [line])).

(** A new table object in the store. *)
Definition new_frame (df : DataFrame) : M ref :=
  fun w => (Val (List.length (frames w)),
            mkWorld (frames w ++ [df]) (fs w) (stdout w)).

Definition read_frame (r : ref) : M DataFrame :=
  fun w =>
    match nth_error (frames w) r with
    | Some df => (Val df, w)
    | None => (Raise (Exception "ReferenceError" "no such table"), w)
    end.

Fixpoint update_nth {A : Type} (n : nat) (x : A) (l : list A) : list A :=
  match l, n with
  | [], _ => []
  | _ :: l', O => x :: l'
  | y :: l', S n' => y :: update_nth n' x l'
  end.

(** In-place update of the table a reference points to. *)
Definition write_frame (r : ref) (df : DataFrame) : M unit :=
  fun w => (Val tt, mkWorld (update_nth r df (frames w)) (fs w) (stdout w)).

(** *** Files *)

Definition path_eqb (p q : Path) : bool :=
  if list_eq_dec string_dec p q then true else false.

Definition is_dir (p : Path) (f : FileSystem) : bool :=
  existsb (path_eqb p) (fs_dirs f).

Fixpoint lookup_file (p : Path) (l : list (Path * string)) : option string :=
  match l with
  | [] => None
  | (q, s) :: l' => if path_eqb p q then Some s else lookup_file p l'
  end.

Definition read_file (p : Path) (f : FileSystem) : option string :=
  lookup_file p (fs_files f).

(** The non-empty prefixes of a path, shortest first: the directories
    [mkdir(parents=True)] walks through. *)
Fixpoint prefixes (p : Path) : list Path :=
  match p with
  | [] => []
  | c :: p' => [c] :: map (cons c) (prefixes p')
  end.

Definition add_dir (f : FileSystem) (p : Path) : FileSystem :=
  if is_dir p f then f else mkFS (fs_dirs f ++ [p]) (fs_files f).

(** [Path(p).mkdir(parents=True, exist_ok=True)]: missing ancestors and
    the directory itself are created; what exists is left alone. *)
Definition mkdir_parents_exist_ok (p : Path) (f : FileSystem) : FileSystem :=
  fold_left add_dir (prefixes p) f.

Fixpoint store_file (p : Path) (s : string) (l : list (Path * string))
  : list (Path * string) :=
  match l with
  | [] => [(p, s)]
  | (q, s') :: l' =>
      if path_eqb p q then (q, s) :: l' else (q, s') :: store_file p s l'
  end.

(** Opening [p] with mode ['w'] and writing [s]: the file holds [s] and
    nothing of what it held before. *)
Definition write_text (p : Path) (s : string) (f : FileSystem) : FileSystem :=
  mkFS (fs_dirs f) (store_file p s (fs_files f)).

Definition mkdir (p : Path) : M unit :=
  fun w => (Val tt, mkWorld (frames w) (mkdir_parents_exist_ok p (fs w)) (stdout w)).

Definition write_file (p : Path) (s : string) : M unit :=
  fun w => (Val tt, mkWorld (frames w) (write_text p s (fs w)) (stdout w)).

(** *** CSV text *)

Definition needs_quote (c : ascii) : bool :=
  match c with
  | ","%char | "034"%char | "010"%char | "013"%char => true
  | _ => false
  end.

Fixpoint any_char (p : ascii -> bool) (s : string) : bool :=
  match s with
  | EmptyString => false
  | String c s' => p c || any_char p s'
  end.

Fixpoint double_quotes (s : string) : string :=
  match s with
  | EmptyString => EmptyString
  | String c s' =>
      if Ascii.eqb c "034"%char
      then String c (String c (double_quotes s'))
      else String c (double_quotes s')
  end.

(** One field under [csv.QUOTE_MINIMAL]. *)
Definition csv_field (s : string) : string :=
  if any_char needs_quote s
  then String "034"%char (double_quotes s ++ String "034"%char EmptyString)%string
  else s.

(** A cell as [to_csv] prints it: a missing value is the empty field. *)
Definition csv_cell (v : pyval) : string :=
  match v with
  | PNone | PNaN => ""
  | _ => csv_field (py_str v)
  end.

Definition newline : string := String "010"%char EmptyString.

Definition csv_line (fields : list string) : string :=
  (String.concat "," fields ++ newline)%string.

Definition csv_text (lines : list (list string)) : string :=
  String.concat "" (map csv_line lines).

(** The records of [df.to_csv(path, index=with_index)]: the header, then
    one record per row; with the index, its name (or the empty field) and
    the row's label come first. *)
Definition to_csv_records (with_index : bool) (df : DataFrame)
  : list (list string) :=
  let header := map csv_field (column_names df) in
  let body i := map (fun c => csv_cell (snd c)) (row df i) in
  if with_index
  then (csv_field (match idx_name (df_index df) with Some n => n | None => "" end)
          :: header)
       :: map (fun il => csv_cell (snd il) :: body (fst il))
            (combine (seq 0 (nrows df)) (idx_labels (df_index df)))
  else header :: map body (seq 0 (nrows df)).

Definition to_csv (with_index : bool) (df : DataFrame) : string :=
  csv_text (to_csv_records with_index df).

(** ** Timestamps *)

(** A pandas datetime scalar: [NaT], or a naive [Timestamp] given by its
    nanoseconds since 1970-01-01T00:00:00.  The bounds of pandas' 64-bit
    representation are not modelled. *)
Inductive DatetimeLike : Type :=
| NaT
| Timestamp (value : Z).

(** [pd.Timedelta(seconds=n)], in nanoseconds. *)
Definition Timedelta_seconds (n : Z) : Z := n * 1000000000.

(** [d + delta]: [NaT] absorbs. *)
Definition add_timedelta (d : DatetimeLike) (delta : Z) : DatetimeLike :=
  match d with
  | NaT => NaT
  | Timestamp v => Timestamp (v + delta)
  end.

(** Wall-clock fields of a timestamp. *)
Definition second_of_day (v : Z) : Z := (v / 1000000000) mod 86400.
Definition hour_of (v : Z) : Z := second_of_day v / 3600.
Definition minute_of (v : Z) : Z := (second_of_day v mod 3600) / 60.
Definition second_of (v : Z) : Z := second_of_day v mod 60.

(** A [%H], [%M] or [%S] field: two digits, zero-padded. *)
Definition two_digits (n : Z) : string :=
  if n <? 10 then ("0" ++ string_of_Z n)%string else string_of_Z n.

(** [d.strftime('%H:%M:%S')] *)
Definition strftime_HMS (d : DatetimeLike) : outcome string :=
  match d with
  | NaT => Raise (Exception "ValueError" "NaTType does not support strftime")
  | Timestamp v =>
      Val (two_digits (hour_of v) ++ ":" ++ two_digits (minute_of v)
             ++ ":" ++ two_digits (second_of v))%string
  end.

(** [d.hour]; [NaT.hour] is NaN, here [None]. *)
Definition hour (d : DatetimeLike) : option Z :=
  match d with
  | NaT => None
  | Timestamp v => Some (hour_of v)
  end.

(** [hour >= 19 or hour < 8]; every comparison with NaN is false. *)
Definition night_hours (h : option Z) : bool :=
  match h with
  | Some n => (19 <=? n) || (n <? 8)
  | None => false
  end.

(** Days from 1970-01-01 to the civil date [y]-[m]-[d] (proleptic
    Gregorian calendar). *)
Definition days_from_civil (y m d : Z) : Z :=
  let y' := if m <=? 2 then y - 1 else y in
  let era := y' / 400 in
  let yoe := y' - era * 400 in
  let mp := if 2 <? m then m - 3 else m + 9 in
  let doy := (153 * mp + 2) / 5 + d - 1 in
  let doe := yoe * 365 + yoe / 4 - yoe / 100 + doy in
  era * 146097 + doe - 719468.

Definition epoch_ns (y m d hh mm ss : Z) : Z :=
  ((days_from_civil y m d * 24 + hh) * 60 + mm) * 60 * 1000000000
  + ss * 1000000000.

(** The string parser behind [pd.to_datetime]: pandas' own code, taken as
    given.  [None] is a string pandas cannot parse. *)
Class DatetimeParser : Type := mkDatetimeParser {
  parse_datetime : string -> option Z
}.

(** [pd.to_datetime(v)] on a scalar.  For [None] pandas returns [None],
    and [None + pd.Timedelta(...)] is [NaT]: a missing start time behaves
    as [NaT] from its first use on.  An int is a count of nanoseconds. *)
Definition to_datetime `{DatetimeParser} (v : pyval) : outcome DatetimeLike :=
  match v with
  | PNone | PNaN => Val NaT
  | PInt n => Val (Timestamp n)
  | PStr s =>
      match parse_datetime s with
      | Some ns => Val (Timestamp ns)
      | None => Raise (Exception "DateParseError"
                        ("Unknown datetime string format, unable to parse: " ++ s)%string)
      end
  | PBool _ => Raise (Exception "TypeError" "<class 'bool'> is not convertible to datetime")
  end.

(** *** An ISO-8601 parser, for concrete runs *)

Definition digit_of (c : ascii) : option Z :=
  let n := Z.of_nat (nat_of_ascii c) in
  if (48 <=? n) && (n <=? 57) then Some (n - 48) else None.

Fixpoint digits_from (acc : Z) (s : string) : option Z :=
  match s with
  | EmptyString => Some acc
  | String c s' =>
      match digit_of c with
      | Some d => digits_from (acc * 10 + d) s'
      | None => None
      end
  end.

Definition field (s : string) (from len : nat) : option Z :=
  let f := substring from len s in
  if (String.length f =? len)%nat then digits_from 0 f else None.

Definition char_is (s : string) (pos : nat) (p : ascii -> bool) : bool :=
  match String.get pos s with
  | Some c => p c
  | None => false
  end.

Definition leap_year (y : Z) : bool :=
  (y mod 4 =? 0) && (negb (y mod 100 =? 0) || (y mod 400 =? 0)).

Definition days_in_month (y m : Z) : Z :=
  if m =? 2 then (if leap_year y then 29 else 28)
  else if (m =? 4) || (m =? 6) || (m =? 9) || (m =? 11) then 30
  else 31.

(** [YYYY-MM-DD], optionally followed by [T] or a blank and [HH:MM:SS]. *)
Definition parse_iso8601 (s : string) : option Z :=
  let dash := Ascii.eqb "-"%char in
  let colon := Ascii.eqb ":"%char in
  let sep c := Ascii.eqb c "T"%char || Ascii.eqb c " "%char in
  match field s 0 4, field s 5 2, field s 8 2 with
  | Some y, Some m, Some d =>
      if negb (char_is s 4 dash && char_is s 7 dash
               && (1 <=? m) && (m <=? 12) && (1 <=? d) && (d <=? days_in_month y m))
      then None
      else if (String.length s =? 10)%nat then Some (epoch_ns y m d 0 0 0)
      else
        match field s 11 2, field s 14 2, field s 17 2 with
        | Some hh, Some mm, Some ss =>
            if (String.length s =? 19)%nat && char_is s 10 sep
               && char_is s 13 colon && char_is s 16 colon
               && (hh <? 24) && (mm <? 60) && (ss <? 60)
            then Some (epoch_ns y m d hh mm ss)
            else None
        | _, _, _ => None
        end
  | _, _, _ => None
  end.

Definition iso8601_parser : DatetimeParser := mkDatetimeParser parse_iso8601.

(** ** The inherited collaborators *)

(** One row of the manual seizure table: columns [source], [start] and
    [end], the times in seconds. *)
Record RawSeizureEvent : Type := mkEvent {
  source : pyval;
  start : Q;
  end_ : Q
}.

(** The methods [IEEGmetadataValidated] inherits from [ManualValidation]. *)
Class ManualValidation : Type := mkManualValidation {
  get_actual_start_times : list string -> M DataFrame;
  get_seizure_times : list string -> M (list RawSeizureEvent)
}.

(** The methods it inherits from [IEEGmetadata].  [save_metadata] returns
    [(channels_df, annotations_df, metadata_dict, clips_df)]. *)
Class IEEGmetadata : Type := mkIEEGmetadata {
  get_redcap_data : list string -> M DataFrame;
  expand_ieeg_days_rows : DataFrame -> M DataFrame;
  save_metadata :
    pyval -> pyval -> M (DataFrame * DataFrame * dict * DataFrame);
  _ieeg_clips : DataFrame -> dict -> M DataFrame
}.

(** ** [IEEGmetadataValidated] *)

(** [int(x)] and [.astype(int)]: truncation toward zero. *)
Definition Qtrunc (x : Q) : Z := Z.quot (Qnum x) (Z.pos (Qden x)).

Definition process_seizure_annotations `{ArgSort}
  (seizure_times : list RawSeizureEvent) : outcome DataFrame :=
  let n := List.length seizure_times in
  let annotations :=
    [ ("layer", repeat (PStr "manual_validation") n);
      ("annotator", map source seizure_times);
      ("description", repeat (PStr "seizure") n);
      ("type", repeat (PStr "seizure") n);
      ("start_time_usec",
        map PInt (map Qtrunc (map (fun x => x * 1e6)%Q (map start seizure_times))));
      ("end_time_usec",
        map PInt (map Qtrunc (map (fun x => x * 1e6)%Q (map end_ seizure_times)))) ] in
  obind (DataFrame_of_dict annotations) (fun annotations_manual =>
  sort_values "start_time_usec" annotations_manual).

(** The number a clip's [start_time_usec] enters [t/1e6] with. *)
Definition as_number (v : pyval) : outcome Q :=
  match v with
  | PInt n => Val (inject_Z n)
  | PBool b => Val (if b then 1 else 0)%Q
  | PNaN => Raise (Exception "ValueError" "cannot convert float NaN to integer")
  | PNone => Raise (Exception "TypeError"
               "unsupported operand type(s) for /: 'NoneType' and 'float'")
  | PStr _ => Raise (Exception "TypeError"
               "unsupported operand type(s) for /: 'str' and 'float'")
  end.

(** The body of the loop of [timestamp_clips] for one clip: the label
    and the night flag. *)
Definition localize_clip (actual_start_time : DatetimeLike) (v : pyval)
  : outcome (string * bool) :=
  obind (as_number v) (fun t0 =>
  let t := (t0 / 1e6)%Q in
  let days_elapsed := Qfloor (t / (24 * 3600))%Q in
  let current_time :=
    add_timedelta actual_start_time (Timedelta_seconds (Qtrunc t)) in
  obind (strftime_HMS current_time) (fun hms =>
  let day_str := ("Day " ++ string_of_Z (days_elapsed + 1) ++ " " ++ hms)%string in
  Val (day_str, night_hours (hour current_time)))).

(** The loop itself, appending to [timestamps] and [is_night]. *)
Fixpoint localize_loop (actual_start_time : DatetimeLike) (col : list pyval)
  (timestamps : list string) (is_night : list bool)
  : outcome (list string * list bool) :=
  match col with
  | [] => Val (timestamps, is_night)
  | v :: col' =>
      obind (localize_clip actual_start_time v) (fun r =>
      localize_loop actual_start_time col'
        (timestamps ++ [fst r]) (is_night ++ [snd r]))
  end.

Definition getitem (d : dict) (k : string) : outcome pyval :=
  match assoc k d with
  | Some v => Val v
  | None => Raise (Exception "KeyError" ("'" ++ k ++ "'")%string)
  end.

(** [timestamp_clips(clips_df, metadata_dict)]: [clips_df] is a reference
    to the table; the index and the [is_night] column are assigned on
    that very table, and the reference is what is returned. *)
Definition timestamp_clips `{DatetimeParser} (clips_df : ref) (metadata_dict : dict)
  : M ref :=
  v <- lift (getitem metadata_dict "actual_start_time") ;;
  actual_start_time <- lift (to_datetime v) ;;
  df <- read_frame clips_df ;;
  col <- lift (match get_column "start_time_usec" df with
               | Some col => Val col
               | None => Raise (Exception "AttributeError"
                   "'DataFrame' object has no attribute 'start_time_usec'")
               end) ;;
  r <- lift (localize_loop actual_start_time col [] []) ;;
  write_frame clips_df
    (set_column "is_night" (map PBool (snd r))
       (set_index (mkIndex (Some "timestamp") (map PStr (fst r))) df)) ;;;
  ret clips_df.

(** [Path(path_to_save / record_id / dataset_name)]: both must be [str]. *)
Definition session_dir (path_to_save : Path) (record_id dataset_name : pyval)
  : outcome Path :=
  match record_id, dataset_name with
  | PStr r, PStr d => Val (path_to_save ++ [r; d])
  | _, _ => Raise (Exception "TypeError" "unsupported operand type(s) for /")
  end.

(** [f.write(s)] on a file opened for writing. *)
Definition append_file (p : Path) (s : string) : M unit :=
  fun w =>
    let old := match read_file p (fs w) with Some t => t | None => "" end in
    (Val tt, mkWorld (frames w) (write_text p (old ++ s)%string (fs w)) (stdout w)).

(** The default of [path_to_save]: the [data] directory of the checkout. *)
Definition default_path_to_save : Path := ["data"].

Definition save_validated_metadata (record_id dataset_name : pyval)
  (annotations_df_validated : DataFrame) (clips_df_validated : ref)
  (metadata_dict : dict) (path_to_save : Path) : M unit :=
  dir <- lift (session_dir path_to_save record_id dataset_name) ;;
  mkdir dir ;;;
  write_file (dir ++ ["annotations.csv"]) (to_csv false annotations_df_validated) ;;;
  clips <- read_frame clips_df_validated ;;
  write_file (dir ++ ["clips.csv"]) (to_csv true clips) ;;;
  write_file (dir ++ ["metadata.txt"]) "" ;;;
  for_each metadata_dict (fun kv =>
    append_file (dir ++ ["metadata.txt"])
      (fst kv ++ ": " ++ py_str (snd kv) ++ newline)%string).

(** [df.iloc[:, idx]] for a non-negative [idx]. *)
Definition iloc_column (df : DataFrame) (idx : nat) : outcome (list pyval) :=
  match nth_error (df_columns df) idx with
  | Some c => Val (snd c)
  | None => Raise (Exception "IndexError" "single positional indexer is out-of-bounds")
  end.

(** [series.values[0]] *)
Definition values_0 (col : list pyval) : outcome pyval :=
  match col with
  | v :: _ => Val v
  | [] => Raise (Exception "IndexError"
            "index 0 is out of bounds for axis 0 with size 0")
  end.

Definition _process_single_session `{IEEGmetadata} `{DatetimeParser}
  (record_id : pyval) (data : dict) (start_times_df : DataFrame)
  (seizure_times_manual : DataFrame) (idx : nat) : M unit :=
  dataset_name <- lift (getitem data "ieegportalsubjno") ;;
  base <- save_metadata record_id dataset_name ;;
  let '(channels_df, annotations_df, metadata_dict, clips_df) := base in
  let annotations_df_validated :=
    pd_concat_ignore_index annotations_df seizure_times_manual in
  clips <- _ieeg_clips annotations_df_validated metadata_dict ;;
  clips_df_validated <- new_frame clips ;;
  localized <-
    (if negb (df_empty start_times_df) then
       start_time <- lift (iloc_column start_times_df idx) ;;
       v0 <- lift (values_0 start_time) ;;
       let start_time_value := if negb (pd_isna v0) then v0 else PNone in
       let metadata_dict := setitem "actual_start_time" start_time_value metadata_dict in
       clips_df_validated <- timestamp_clips clips_df_validated metadata_dict ;;
       ret (metadata_dict, clips_df_validated)
     else ret (metadata_dict, clips_df_validated)) ;;
  save_validated_metadata record_id dataset_name annotations_df_validated
    (snd localized) (fst localized) default_path_to_save.

(** [df.iterrows()]: each row's label with the row. *)
Definition iterrows (df : DataFrame) : list (pyval * dict) :=
  combine (idx_labels (df_index df)) (map (row df) (seq 0 (nrows df))).

(** [enumerate(xs, start=k)] *)
Definition enumerate {A : Type} (xs : list A) (k : nat) : list (nat * A) :=
  combine (seq k (List.length xs)) xs.

Definition process_subject_data
  `{IEEGmetadata} `{ManualValidation} `{ArgSort} `{DatetimeParser}
  (subject_id : string) : M unit :=
  ieeg_data_df <- get_redcap_data [subject_id] ;;
  ieeg_data_df <- expand_ieeg_days_rows ieeg_data_df ;;
  start_times_df <- get_actual_start_times [subject_id] ;;
  seizure_times_df <- get_seizure_times [subject_id] ;;
  seizure_times_manual <- lift (process_seizure_annotations seizure_times_df) ;;
  for_each (enumerate (iterrows ieeg_data_df) 2) (fun it =>
    _process_single_session (fst (snd it)) (snd (snd it))
      start_times_df seizure_times_manual (fst it)).

(** [try: body  except Exception as e: handler(str(e))] *)
Definition try_except_Exception (body : M unit) (handler : string -> M unit)
  : M unit :=
  fun w =>
    match body w with
    | (Raise (Exception _ msg), w') => handler msg w'
    | r => r
    end.

(** The loop under [if __name__ == '__main__']. *)
Definition main_loop
  `{IEEGmetadata} `{ManualValidation} `{ArgSort} `{DatetimeParser}
  (subjects_to_find : list string) : M unit :=
  for_each subjects_to_find (fun subject =>
    print ("Processing " ++ subject)%string ;;;
    try_except_Exception (process_subject_data subject) (fun e =>
      print ("Error processing " ++ subject ++ ": " ++ e)%string)).

(** ** Two sorts that meet the contract

    Insertion of the row positions, last to first.  A position is put in
    front of the first position whose key it may precede: with [<=] it
    stays in front of the later rows of equal key (a stable sort), with
    [<] it goes behind them (equal keys come out in reverse). *)

Section InsertionArgsort.

Variable before : Z -> Z -> bool.
Hypothesis before_le : forall a b, before a b = true -> a <= b.
Hypothesis not_before_ge : forall a b, before a b = false -> b <= a.

Variable ks : list Z.

Definition key_at (i : nat) : Z := nth i ks 0.

Fixpoint insert_position (i : nat) (l : list nat) : list nat :=
  match l with
  | [] => [i]
  | j :: l' =>
      if before (key_at i) (key_at j) then i :: j :: l'
      else j :: insert_position i l'
  end.

Definition insertion_argsort : list nat :=
  fold_right insert_position [] (seq 0 (List.length ks)).

Lemma insert_position_perm (i : nat) (l : list nat) :
  Permutation (insert_position i l) (i :: l).
Proof.
  induction l as [|j l IH]; simpl.
  - apply Permutation_refl.
  - destruct (before (key_at i) (key_at j)).
    + apply Permutation_refl.
    + apply perm_trans with (j :: i :: l).
      * now apply perm_skip.
      * apply perm_swap.
Qed.

Lemma insert_position_sorted (i : nat) (l : list nat) :
  StronglySorted Z.le (map key_at l) ->
  StronglySorted Z.le (map key_at (insert_position i l)).
Proof.
  induction l as [|j l IH]; simpl; intros Hs.
  - repeat constructor.
  - destruct (before (key_at i) (key_at j)) eqn:Hb; simpl.
    + apply before_le in Hb.
      constructor; [exact Hs|].
      inversion Hs as [|? ? _ Hall]; subst.
      constructor; [exact Hb|].
      eapply Forall_impl; [|exact Hall].
      intros a Ha; simpl in Ha; lia.
    + apply not_before_ge in Hb.
      inversion Hs as [|? ? Hs' Hall]; subst.
      constructor; [now apply IH|].
      rewrite Forall_forall in Hall |- *.
      intros a Ha.
      apply in_map_iff in Ha as [p [<- Hp]].
      apply (Permutation_in _ (insert_position_perm i l)) in Hp.
      destruct Hp as [<-|Hp]; [exact Hb|].
      apply Hall, in_map, Hp.
Qed.

Lemma insertion_argsort_perm :
  Permutation insertion_argsort (seq 0 (List.length ks)).
Proof.
  unfold insertion_argsort.
  induction (seq 0 (List.length ks)) as [|i l IH]; simpl.
  - constructor.
  - eapply perm_trans; [apply insert_position_perm|now apply perm_skip].
Qed.

Lemma insertion_argsort_sorted :
  StronglySorted Z.le (map key_at insertion_argsort).
Proof.
  unfold insertion_argsort.
  induction (seq 0 (List.length ks)) as [|i l IH]; simpl.
  - constructor.
  - now apply insert_position_sorted.
Qed.

End InsertionArgsort.

Lemma leb_before (a b : Z) : (a <=? b) = true -> a <= b.
Proof. apply Z.leb_le. Qed.

Lemma leb_not_before (a b : Z) : (a <=? b) = false -> b <= a.
Proof. rewrite Z.leb_gt. lia. Qed.



(** The stable one: equal keys keep their input order. *)
Definition stable_argsort : ArgSort :=
  mkArgSort (insertion_argsort Z.leb)
    (insertion_argsort_perm Z.leb)
    (insertion_argsort_sorted Z.leb leb_before leb_not_before).


(** * Properties *)

(** ** Lists and tables *)










Lemma int_keys_PInt (ks : list Z) : int_keys (map PInt ks) = Some ks.
Proof.
  induction ks as [|k ks IH]; simpl; [reflexivity|now rewrite IH].
Qed.




(** ** The annotation normaliser *)

(** The [start_time_usec] and [end_time_usec] columns before the sort. *)
Definition start_usecs (events : list RawSeizureEvent) : list Z :=
  map Qtrunc (map (fun x => x * 1e6)%Q (map start events)).

Definition end_usecs (events : list RawSeizureEvent) : list Z :=
  map Qtrunc (map (fun x => x * 1e6)%Q (map end_ events)).

(** The table [pd.DataFrame(annotations)] builds, before the sort. *)
Definition annotations_frame (events : list RawSeizureEvent) : DataFrame :=
  let n := List.length events in
  mkDataFrame (RangeIndex n)
    [ ("layer", repeat (PStr "manual_validation") n);
      ("annotator", map source events);
      ("description", repeat (PStr "seizure") n);
      ("type", repeat (PStr "seizure") n);
      ("start_time_usec", map PInt (start_usecs events));
      ("end_time_usec", map PInt (end_usecs events)) ].


Lemma length_start_usecs (events : list RawSeizureEvent) :
  List.length (start_usecs events) = List.length events.
Proof. unfold start_usecs; now rewrite !length_map. Qed.

Lemma length_end_usecs (events : list RawSeizureEvent) :
  List.length (end_usecs events) = List.length events.
Proof. unfold end_usecs; now rewrite !length_map. Qed.

Lemma process_seizure_annotations_eq `{ArgSort} (events : list RawSeizureEvent) :
  process_seizure_annotations events =
  Val (take_rows (argsort (start_usecs events)) (annotations_frame events)).
Proof.
  unfold process_seizure_annotations, DataFrame_of_dict, annotations_frame.
  cbv zeta.
  fold (start_usecs events); fold (end_usecs events).
  cbn [forallb snd].
  rewrite !length_map, !repeat_length, length_start_usecs, length_end_usecs.
  rewrite Nat.eqb_refl; cbn [andb obind].
  unfold sort_values, get_column; cbn [assoc df_columns String.eqb Ascii.eqb Bool.eqb].
  now rewrite int_keys_PInt.
Qed.















(** ** Keyed assignment and the store *)

Lemma assoc_setitem_same {A : Type} (k : string) (v : A) (l : list (string * A)) :
  assoc k (setitem k v l) = Some v.
Proof.
  induction l as [|[k' v'] l IH]; simpl.
  - now rewrite String.eqb_refl.
  - destruct (String.eqb k k') eqn:E; simpl.
    + now rewrite String.eqb_refl.
    + now rewrite E.
Qed.

Lemma assoc_setitem_other {A : Type} (k k0 : string) (v : A) (l : list (string * A)) :
  k0 <> k -> assoc k0 (setitem k v l) = assoc k0 l.
Proof.
  intros Hne.
  induction l as [|[k' v'] l IH]; simpl.
  - apply String.eqb_neq in Hne; now rewrite Hne.
  - destruct (String.eqb k k') eqn:E; simpl.
    + apply String.eqb_eq in E; subst k'.
      apply String.eqb_neq in Hne; now rewrite Hne.
    + now rewrite IH.
Qed.


Lemma nth_error_update_nth_same {A : Type} (r : nat) (x : A) (l : list A) :
  (r < List.length l)%nat -> nth_error (update_nth r x l) r = Some x.
Proof.
  revert r; induction l as [|y l IH]; intros [|r] Hr; simpl in *; try lia; auto.
  apply IH; lia.
Qed.



(** ** The temporal localiser *)

(** The loop of [timestamp_clips], clip by clip. *)
Fixpoint localize_all (actual_start_time : DatetimeLike) (col : list pyval)
  : outcome (list (string * bool)) :=
  match col with
  | [] => Val []
  | v :: col' =>
      obind (localize_clip actual_start_time v) (fun r =>
      obind (localize_all actual_start_time col') (fun rs => Val (r :: rs)))
  end.

Lemma localize_loop_all (st : DatetimeLike) (col : list pyval)
  (timestamps : list string) (is_night : list bool) :
  localize_loop st col timestamps is_night =
  obind (localize_all st col) (fun rs =>
    Val (timestamps ++ map fst rs, is_night ++ map snd rs)).
Proof.
  revert timestamps is_night.
  induction col as [|v col IH]; intros timestamps is_night; simpl.
  - now rewrite !app_nil_r.
  - destruct (localize_clip st v) as [r|e]; simpl; [|reflexivity].
    rewrite IH.
    destruct (localize_all st col) as [rs|e]; simpl; [|reflexivity].
    now rewrite <- !app_assoc.
Qed.

Lemma localize_all_Val (st : DatetimeLike) (col : list pyval)
  (rs : list (string * bool)) :
  localize_all st col = Val rs ->
  Forall2 (fun v r => localize_clip st v = Val r) col rs.
Proof.
  revert rs; induction col as [|v col IH]; intros rs; simpl.
  - intros [= <-]; constructor.
  - destruct (localize_clip st v) as [r|e] eqn:Hr; simpl; [|discriminate].
    destruct (localize_all st col) as [rs'|e] eqn:Hrs; simpl; [|discriminate].
    intros [= <-]; constructor; auto.
Qed.

(** The table [timestamp_clips] leaves behind: the labels as the index,
    named [timestamp], and the [is_night] column assigned. *)
Definition localized_frame (rs : list (string * bool)) (df : DataFrame) : DataFrame :=
  set_column "is_night" (map PBool (map snd rs))
    (set_index (mkIndex (Some "timestamp") (map PStr (map fst rs))) df).

(** What a run of [timestamp_clips] that returns has done. *)
Lemma timestamp_clips_Val `{DatetimeParser} (clips_df : ref) (metadata_dict : dict)
  (w w' : World) (r : ref) :
  timestamp_clips clips_df metadata_dict w = (Val r, w') ->
  exists v st df col rs,
    assoc "actual_start_time" metadata_dict = Some v
    /\ to_datetime v = Val st
    /\ nth_error (frames w) clips_df = Some df
    /\ get_column "start_time_usec" df = Some col
    /\ localize_all st col = Val rs
    /\ r = clips_df
    /\ w' = mkWorld (update_nth clips_df (localized_frame rs df) (frames w))
                    (fs w) (stdout w).
Proof.
  unfold timestamp_clips, bind, lift, getitem, read_frame, write_frame, ret.
  destruct (assoc "actual_start_time" metadata_dict) as [v|]; [|discriminate].
  destruct (to_datetime v) as [st|e] eqn:Hst; [|discriminate].
  destruct (nth_error (frames w) clips_df) as [df|]; [|discriminate].
  destruct (get_column "start_time_usec" df) as [col|] eqn:Hcol; [|discriminate].
  rewrite localize_loop_all.
  destruct (localize_all st col) as [rs|e] eqn:Hrs; simpl; [|discriminate].
  intros [= <- <-].
  exists v, st, df, col, rs; repeat split; assumption.
Qed.

(** The run of [timestamp_clips] on inputs that let it return. *)
Lemma timestamp_clips_run `{DatetimeParser} (clips_df : ref) (metadata_dict : dict)
  (w : World) (v : pyval) (st : DatetimeLike) (df : DataFrame)
  (col : list pyval) (rs : list (string * bool)) :
  assoc "actual_start_time" metadata_dict = Some v ->
  to_datetime v = Val st ->
  nth_error (frames w) clips_df = Some df ->
  get_column "start_time_usec" df = Some col ->
  localize_all st col = Val rs ->
  timestamp_clips clips_df metadata_dict w =
  (Val clips_df,
   mkWorld (update_nth clips_df (localized_frame rs df) (frames w)) (fs w) (stdout w)).
Proof.
  intros Hv Hst Hdf Hcol Hrs.
  unfold timestamp_clips, bind, lift, getitem, read_frame, write_frame, ret.
  rewrite Hv, Hst, Hdf, Hcol, localize_loop_all, Hrs.
  reflexivity.
Qed.

Lemma Qtrunc_seconds (u : Z) : Qtrunc (inject_Z u / 1e6) = u ÷ 1000000.
Proof.
  unfold Qtrunc, Qdiv, Qmult, Qinv, inject_Z; simpl.
  now rewrite Z.mul_1_r.
Qed.


Lemma Qfloor_days (u : Z) :
  Qfloor (inject_Z u / 1e6 / (24 * 3600)) = u / 86400000000.
Proof.
  unfold Qfloor, Qdiv, Qmult, Qinv, inject_Z; simpl.
  now rewrite !Z.mul_1_r.
Qed.

(** [HH:MM:SS] of a timestamp. *)
Definition HMS (v : Z) : string :=
  (two_digits (hour_of v) ++ ":" ++ two_digits (minute_of v)
     ++ ":" ++ two_digits (second_of v))%string.

(** The clip's absolute time as the code computes it: the start time plus
    the whole seconds of the offset, truncated toward zero. *)
Definition current_time (start_time start_time_usec : Z) : Z :=
  start_time + Timedelta_seconds (start_time_usec ÷ 1000000).

(** The label the loop builds for an integer offset, in integer terms. *)
Definition day_str (start_time u : Z) : string :=
  ("Day " ++ string_of_Z (u / 86400000000 + 1) ++ " "
     ++ HMS (current_time start_time u))%string.

(** What the loop computes for an integer offset and a valid start. *)
Lemma localize_clip_int (start_time u : Z) :
  localize_clip (Timestamp start_time) (PInt u) =
  Val (day_str start_time u,
       night_hours (Some (hour_of (current_time start_time u)))).
Proof.
  unfold localize_clip, as_number, obind, add_timedelta, strftime_HMS, hour, day_str.
  now rewrite Qfloor_days, Qtrunc_seconds.
Qed.









Lemma nth_error_in_range {A : Type} (l : list A) (i : nat) (x : A) :
  nth_error l i = Some x -> (i < List.length l)%nat.
Proof. intros Hx; apply nth_error_Some; congruence. Qed.

(** A session's clips, one minute each, starting 0, 8 and 9 hours into
    the recording, and its metadata. *)
Definition example_clips : DataFrame :=
  mkDataFrame (RangeIndex 3)
    [ ("start_time_usec", [PInt 0; PInt 28800000000; PInt 32400000000]);
      ("end_time_usec", [PInt 60000000; PInt 28860000000; PInt 32460000000]) ].

Definition example_metadata : dict :=
  [ ("dataset", PStr "HUP_demo_phaseII");
    ("actual_start_time", PStr "2023-01-01T10:00:00") ].

Definition example_world : World := mkWorld [example_clips] (mkFS [] []) [].



(** The night flag the specification describes for an absolute time. *)
Definition spec_is_night (absolute_time : Z) : bool :=
  (19 <=? hour_of absolute_time) || (hour_of absolute_time <? 8).




(** The run on the example session, in full. *)
Example timestamp_clips_example :
  @timestamp_clips iso8601_parser 0%nat example_metadata example_world =
  (Val 0%nat,
   mkWorld
     [ mkDataFrame
         (mkIndex (Some "timestamp")
            [PStr "Day 1 10:00:00"; PStr "Day 1 18:00:00"; PStr "Day 1 19:00:00"])
         [ ("start_time_usec", [PInt 0; PInt 28800000000; PInt 32400000000]);
           ("end_time_usec", [PInt 60000000; PInt 28860000000; PInt 32460000000]);
           ("is_night", [PBool false; PBool false; PBool true]) ] ]
     (mkFS [] []) []).
Proof. vm_compute. reflexivity. Qed.

(** A clip 90000 s (one day and one hour) after a midnight start. *)
Example timestamp_clips_next_day :
  @timestamp_clips iso8601_parser 0%nat
    [("actual_start_time", PStr "2023-01-01 00:00:00")]
    (mkWorld [mkDataFrame (RangeIndex 1) [("start_time_usec", [PInt 90000000000])]]
       (mkFS [] []) [])
  = (Val 0%nat,
     mkWorld
       [ mkDataFrame (mkIndex (Some "timestamp") [PStr "Day 2 01:00:00"])
           [ ("start_time_usec", [PInt 90000000000]);
             ("is_night", [PBool true]) ] ]
       (mkFS [] []) []).
Proof. vm_compute. reflexivity. Qed.





(** ** Files *)


Lemma path_eqb_refl (p : Path) : path_eqb p p = true.
Proof.
  unfold path_eqb; destruct (list_eq_dec string_dec p p); congruence.
Qed.







Lemma is_dir_add_dir_same (p : Path) (f : FileSystem) :
  is_dir p (add_dir f p) = true.
Proof.
  unfold add_dir; destruct (is_dir p f) eqn:E; [exact E|].
  unfold is_dir; cbn [fs_dirs].
  rewrite existsb_app; simpl.
  now rewrite path_eqb_refl, orb_true_r.
Qed.

Lemma is_dir_add_dir_keeps (p q : Path) (f : FileSystem) :
  is_dir q f = true -> is_dir q (add_dir f p) = true.
Proof.
  intros Hq; unfold add_dir; destruct (is_dir p f); [exact Hq|].
  unfold is_dir in *; cbn [fs_dirs].
  now rewrite existsb_app, Hq.
Qed.

Lemma add_dir_existing (p : Path) (f : FileSystem) :
  is_dir p f = true -> add_dir f p = f.
Proof. intros Hp; unfold add_dir; now rewrite Hp. Qed.


Lemma is_dir_add_dirs_keeps (ps : list Path) (q : Path) (f : FileSystem) :
  is_dir q f = true -> is_dir q (fold_left add_dir ps f) = true.
Proof.
  revert f; induction ps as [|p ps IH]; intros f Hq; simpl; [exact Hq|].
  now apply IH, is_dir_add_dir_keeps.
Qed.

Lemma is_dir_add_dirs (ps : list Path) (q : Path) (f : FileSystem) :
  In q ps -> is_dir q (fold_left add_dir ps f) = true.
Proof.
  revert f; induction ps as [|p ps IH]; intros f Hq; simpl; [contradiction|].
  destruct Hq as [->|Hq].
  - apply is_dir_add_dirs_keeps, is_dir_add_dir_same.
  - now apply IH.
Qed.

Lemma add_dirs_existing (ps : list Path) (f : FileSystem) :
  Forall (fun p => is_dir p f = true) ps -> fold_left add_dir ps f = f.
Proof.
  induction 1 as [|p ps Hp _ IH]; simpl; [reflexivity|].
  now rewrite add_dir_existing.
Qed.


(** After [mkdir(parents=True, exist_ok=True)] the directory and all its
    ancestors exist; the call changes nothing when they already did, so a
    second call changes nothing. *)
Lemma mkdir_creates (p q : Path) (f : FileSystem) :
  In q (prefixes p) -> is_dir q (mkdir_parents_exist_ok p f) = true.
Proof. apply is_dir_add_dirs. Qed.

Lemma mkdir_idempotent (p : Path) (f : FileSystem) :
  mkdir_parents_exist_ok p (mkdir_parents_exist_ok p f) = mkdir_parents_exist_ok p f.
Proof.
  unfold mkdir_parents_exist_ok at 1.
  apply add_dirs_existing, Forall_forall.
  intros q Hq; now apply mkdir_creates.
Qed.

(** ** The writer *)

(** One line of [metadata.txt]. *)
Definition metadata_line (kv : string * pyval) : string :=
  (fst kv ++ ": " ++ py_str (snd kv) ++ newline)%string.

(** The lines of a dict's items, in the dict's order. *)
Fixpoint metadata_text (d : dict) : string :=
  match d with
  | [] => ""
  | kv :: d' => (metadata_line kv ++ metadata_text d')%string
  end.















(** The base annotations of the example session and its merged table. *)
Definition example_annotations : DataFrame :=
  mkDataFrame (RangeIndex 2)
    [ ("layer", [PStr "EEG_events"; PStr "EEG_events"]);
      ("annotator", [PStr "portal"; PStr "portal"]);
      ("description", [PStr "seizure onset"; PStr "clinical, end"]);
      ("type", [PStr "seizure"; PStr "seizure"]);
      ("start_time_usec", [PInt 90000000000; PInt 4000000]);
      ("end_time_usec", [PInt 90060000000; PInt 5000000]) ].



(** The three files of the example session, record by record. *)
Example annotations_csv_example :
  to_csv_records false example_annotations =
  [ ["layer"; "annotator"; "description"; "type"; "start_time_usec"; "end_time_usec"];
    ["EEG_events"; "portal"; "seizure onset"; "seizure"; "90000000000"; "90060000000"];
    ["EEG_events"; "portal";
     String "034"%char ("clinical, end" ++ String "034"%char EmptyString)%string;
     "seizure"; "4000000"; "5000000"] ].
Proof. vm_compute; reflexivity. Qed.

Example clips_csv_example :
  to_csv_records true example_clips =
  [ [""; "start_time_usec"; "end_time_usec"];
    ["0"; "0"; "60000000"];
    ["1"; "28800000000"; "28860000000"];
    ["2"; "32400000000"; "32460000000"] ].
Proof. vm_compute; reflexivity. Qed.

(** The clips of the example session once localised: the labels are the
    first column. *)
Example localized_clips_csv_example :
  to_csv_records true
    (localized_frame
       [ ("Day 1 10:00:00", false); ("Day 1 18:00:00", false); ("Day 1 19:00:00", true) ]
       example_clips)
  = [ ["timestamp"; "start_time_usec"; "end_time_usec"; "is_night"];
      ["Day 1 10:00:00"; "0"; "60000000"; "False"];
      ["Day 1 18:00:00"; "28800000000"; "28860000000"; "False"];
      ["Day 1 19:00:00"; "32400000000"; "32460000000"; "True"] ].
Proof. vm_compute; reflexivity. Qed.

Example metadata_txt_example :
  metadata_text example_metadata =
  ("dataset: HUP_demo_phaseII" ++ newline
     ++ "actual_start_time: 2023-01-01T10:00:00" ++ newline)%string.
Proof. vm_compute; reflexivity. Qed.

(** ** Concatenation *)

Lemma assoc_In {A : Type} (k : string) (v : A) (l : list (string * A)) :
  assoc k l = Some v -> In (k, v) l.
Proof.
  induction l as [|[k' v'] l IH]; simpl; [discriminate|].
  destruct (String.eqb k k') eqn:E.
  - apply String.eqb_eq in E; subst k'; intros [= ->]; now left.
  - intros Hl; right; auto.
Qed.




Lemma column_length (df : DataFrame) (name : string) (col : list pyval) :
  well_formed df -> get_column name df = Some col -> List.length col = nrows df.
Proof.
  intros Hwf Hcol; apply assoc_In in Hcol.
  unfold well_formed in Hwf; rewrite Forall_forall in Hwf.
  apply (Hwf (name, col) Hcol).
Qed.













(** ** Sequencing *)


Lemma bind_run {A B : Type} (m : M A) (k : A -> M B) (w w1 : World) (a : A) :
  m w = (Val a, w1) -> bind m k w = k a w1.
Proof. intros Hm; unfold bind; now rewrite Hm. Qed.


Lemma for_each_app {A : Type} (xs ys : list A) (body : A -> M unit) (w : World) :
  for_each (xs ++ ys) body w = (for_each xs body ;;; for_each ys body) w.
Proof.
  revert w; induction xs as [|x xs IH]; intros w; simpl.
  - reflexivity.
  - unfold bind.
    destruct (body x w) as [[[]|e] w1]; [|reflexivity].
    rewrite IH; reflexivity.
Qed.

(** ** One session *)


(** The world in which a session's clips table has just been made. *)
Definition with_clips (clips : DataFrame) (w : World) : World :=
  mkWorld (frames w ++ [clips]) (fs w) (stdout w).

(** The part of a session after the clips are derived: localisation when
    the start-time table is not empty, then the writer. *)
Definition finish_session `{DatetimeParser} (record_id dataset_name : pyval)
  (start_times_df annotations_df_validated : DataFrame) (metadata_dict : dict)
  (clips_df_validated : ref) (idx : nat) : M unit :=
  localized <-
    (if negb (df_empty start_times_df) then
       start_time <- lift (iloc_column start_times_df idx) ;;
       v0 <- lift (values_0 start_time) ;;
       let start_time_value := if negb (pd_isna v0) then v0 else PNone in
       let metadata_dict := setitem "actual_start_time" start_time_value metadata_dict in
       clips_df_validated <- timestamp_clips clips_df_validated metadata_dict ;;
       ret (metadata_dict, clips_df_validated)
     else ret (metadata_dict, clips_df_validated)) ;;
  save_validated_metadata record_id dataset_name annotations_df_validated
    (snd localized) (fst localized) default_path_to_save.

Lemma session_unfold `{IEEGmetadata} `{DatetimeParser}
  (record_id : pyval) (data : dict) (start_times_df seizure_times_manual : DataFrame)
  (idx : nat) (w w1 w2 : World) (dataset_name : pyval)
  (channels_df annotations_df clips_df clips : DataFrame) (metadata_dict : dict) :
  getitem data "ieegportalsubjno" = Val dataset_name ->
  save_metadata record_id dataset_name w
    = (Val (channels_df, annotations_df, metadata_dict, clips_df), w1) ->
  _ieeg_clips (pd_concat_ignore_index annotations_df seizure_times_manual)
    metadata_dict w1 = (Val clips, w2) ->
  _process_single_session record_id data start_times_df seizure_times_manual idx w
  = finish_session record_id dataset_name start_times_df
      (pd_concat_ignore_index annotations_df seizure_times_manual)
      metadata_dict (List.length (frames w2)) idx (with_clips clips w2).
Proof.
  intros Hd Hs Hc.
  unfold _process_single_session.
  unfold bind at 1, lift at 1; rewrite Hd.
  unfold bind at 1; rewrite Hs.
  unfold bind at 1; rewrite Hc.
  unfold bind at 1, new_frame at 1.
  reflexivity.
Qed.




(** ** An example subject

    One subject with one recording day.  The collaborators return fixed
    tables; [start_cell] is the cell of the start-time table the session
    reads (the third column, position 2). *)

Definition example_sessions : DataFrame :=
  mkDataFrame (mkIndex (Some "record_id") [PStr "sub-RID0572"])
    [ ("ieegportalsubjno", [PStr "HUP_demo_phaseII"]);
      ("ieeg_days", [PInt 1]) ].

Definition example_channels : DataFrame :=
  mkDataFrame (RangeIndex 2) [ ("name", [PStr "LA01"; PStr "LA02"]) ].

Definition example_base_metadata : dict :=
  [ ("dataset", PStr "HUP_demo_phaseII"); ("sample_rate", PInt 512) ].

Definition example_start_times (start_cell : pyval) : DataFrame :=
  mkDataFrame (RangeIndex 1)
    [ ("record_id", [PStr "sub-RID0572"]);
      ("redcap_event_name", [PStr "ieeg_arm_1"]);
      ("day1_start", [start_cell]) ].

Definition example_events : list RawSeizureEvent :=
  [ mkEvent (PStr "A") 1.5 2.25; mkEvent (PStr "B") 0.25 0.75 ].

(** The portal is unreachable for the subject [sub-RID0000]. *)
Definition example_IEEGmetadata (clips : DataFrame) : IEEGmetadata :=
  mkIEEGmetadata
    (fun subjects =>
       if existsb (String.eqb "sub-RID0000") subjects
       then raise (Exception "ConnectionError" "portal unreachable")
       else ret example_sessions)
    (fun df => ret df)
    (fun _ _ => ret (example_channels, example_annotations,
                     example_base_metadata, clips))
    (fun _ _ => ret clips).

Definition example_ManualValidation (start_cell : pyval) : ManualValidation :=
  mkManualValidation
    (fun _ => ret (example_start_times start_cell))
    (fun _ => ret example_events).

Definition empty_world : World := mkWorld [] (mkFS [] []) [].

(** The manual annotations of the example subject. *)
Definition example_manual : DataFrame :=
  mkDataFrame (mkIndex None [PInt 1; PInt 0])
    [ ("layer", [PStr "manual_validation"; PStr "manual_validation"]);
      ("annotator", [PStr "B"; PStr "A"]);
      ("description", [PStr "seizure"; PStr "seizure"]);
      ("type", [PStr "seizure"; PStr "seizure"]);
      ("start_time_usec", [PInt 250000; PInt 1500000]);
      ("end_time_usec", [PInt 750000; PInt 2250000]) ].

Example example_manual_normalized :
  @process_seizure_annotations stable_argsort example_events = Val example_manual.
Proof. vm_compute; reflexivity. Qed.




(** The merged table of the example session: the two base annotations
    first, although both manual ones start earlier than the first of
    them. *)
Example merged_example :
  pd_concat_ignore_index example_annotations example_manual =
  mkDataFrame (RangeIndex 4)
    [ ("layer", [PStr "EEG_events"; PStr "EEG_events";
                 PStr "manual_validation"; PStr "manual_validation"]);
      ("annotator", [PStr "portal"; PStr "portal"; PStr "B"; PStr "A"]);
      ("description", [PStr "seizure onset"; PStr "clinical, end";
                       PStr "seizure"; PStr "seizure"]);
      ("type", [PStr "seizure"; PStr "seizure"; PStr "seizure"; PStr "seizure"]);
      ("start_time_usec", [PInt 90000000000; PInt 4000000; PInt 250000; PInt 1500000]);
      ("end_time_usec", [PInt 90060000000; PInt 5000000; PInt 750000; PInt 2250000]) ].
Proof. vm_compute; reflexivity. Qed.

(** ** A missing start time *)

Lemma localize_clip_NaT (v : pyval) :
  exists e, localize_clip NaT v = Raise e.
Proof.
  unfold localize_clip.
  destruct (as_number v) as [t|e]; simpl; eexists; reflexivity.
Qed.

Lemma localize_loop_NaT (v : pyval) (col : list pyval) :
  exists e, localize_loop NaT (v :: col) [] [] = Raise e.
Proof.
  destruct (localize_clip_NaT v) as [e He].
  exists e; simpl; now rewrite He.
Qed.

(** With [None] as the start time and at least one clip,
    [timestamp_clips] raises and has changed nothing. *)
Lemma timestamp_clips_missing_start `{DatetimeParser} (clips_df : ref)
  (metadata_dict : dict) (w : World) (df : DataFrame) :
  assoc "actual_start_time" metadata_dict = Some PNone ->
  nth_error (frames w) clips_df = Some df ->
  well_formed df -> (0 < nrows df)%nat ->
  exists e, timestamp_clips clips_df metadata_dict w = (Raise e, w).
Proof.
  intros Hv Hdf Hwf Hn.
  unfold timestamp_clips, bind, lift, getitem, read_frame.
  rewrite Hv; cbn [to_datetime]; rewrite Hdf.
  destruct (get_column "start_time_usec" df) as [col|] eqn:Hcol.
  - assert (Hlen : List.length col = nrows df) by (now apply (column_length df "start_time_usec")).
    destruct col as [|v col]; [simpl in Hlen; lia|].
    destruct (localize_loop_NaT v col) as [e He].
    rewrite He; now exists e.
  - eexists; reflexivity.
Qed.

Lemma timestamp_clips_missing_start_int `{DatetimeParser} (clips_df : ref)
  (metadata_dict : dict) (w : World) (df : DataFrame) (u : Z) (col : list pyval) :
  assoc "actual_start_time" metadata_dict = Some PNone ->
  nth_error (frames w) clips_df = Some df ->
  get_column "start_time_usec" df = Some (PInt u :: col) ->
  timestamp_clips clips_df metadata_dict w
  = (Raise (Exception "ValueError" "NaTType does not support strftime"), w).
Proof.
  intros Hv Hdf Hcol.
  unfold timestamp_clips, bind, lift, getitem, read_frame.
  rewrite Hv; cbn [to_datetime]; rewrite Hdf, Hcol.
  reflexivity.
Qed.

Lemma finish_session_missing_start `{DatetimeParser} (record_id dataset_name : pyval)
  (start_times_df annotations : DataFrame) (metadata_dict : dict)
  (clips_ref : ref) (idx : nat) (w : World) (col : list pyval) (v0 : pyval) (e : exn) :
  df_empty start_times_df = false ->
  iloc_column start_times_df idx = Val col ->
  values_0 col = Val v0 ->
  pd_isna v0 = true ->
  timestamp_clips clips_ref (setitem "actual_start_time" PNone metadata_dict) w
    = (Raise e, w) ->
  finish_session record_id dataset_name start_times_df annotations metadata_dict
    clips_ref idx w = (Raise e, w).
Proof.
  intros Hne Hcol Hv0 Hna Hts.
  unfold finish_session; rewrite Hne; cbn [negb].
  unfold bind at 1. unfold bind at 1, lift at 1; rewrite Hcol.
  unfold bind at 1, lift at 1; rewrite Hv0, Hna; cbn [negb].
  unfold bind at 1; rewrite Hts.
  reflexivity.
Qed.

(** C10: with [None] under [actual_start_time] and a clips table that is
    not empty, [timestamp_clips] raises instead of returning: [None]
    becomes not-a-time, any offset added to it is not-a-time, and its
    formatting fails on the first clip (whose offset is an int).  Nothing
    is localised, and a session that reaches this call, as every session
    does whose start time is missing from a start-time table that is not
    empty, ends there: the clips stay as derived and the writer is not
    reached, so the file system is as the collaborators left it. *)
Theorem missing_start_time_raises `{IEEGmetadata} `{DatetimeParser}
  (clips_df : ref) (metadata_dict : dict) (w : World) (clips : DataFrame) :
  assoc "actual_start_time" metadata_dict = Some PNone ->
  nth_error (frames w) clips_df = Some clips ->
  well_formed clips -> (0 < nrows clips)%nat ->
  to_datetime PNone = Val NaT
  /\ (forall delta, add_timedelta NaT delta = NaT)
  /\ strftime_HMS NaT
     = Raise (Exception "ValueError" "NaTType does not support strftime")
  /\ (exists e, timestamp_clips clips_df metadata_dict w = (Raise e, w))
  /\ (forall u rest,
        get_column "start_time_usec" clips = Some (PInt u :: rest) ->
        timestamp_clips clips_df metadata_dict w
        = (Raise (Exception "ValueError" "NaTType does not support strftime"), w))
  /\ (forall record_id data start_times_df seizure_times_manual idx w0 w1 w2
             dataset_name channels_df annotations_df clips_df0 metadata_dict0
             col v0,
        getitem data "ieegportalsubjno" = Val dataset_name ->
        save_metadata record_id dataset_name w0
          = (Val (channels_df, annotations_df, metadata_dict0, clips_df0), w1) ->
        _ieeg_clips (pd_concat_ignore_index annotations_df seizure_times_manual)
          metadata_dict0 w1 = (Val clips, w2) ->
        df_empty start_times_df = false ->
        iloc_column start_times_df idx = Val col ->
        values_0 col = Val v0 ->
        pd_isna v0 = true ->
        exists e,
          _process_single_session record_id data start_times_df
            seizure_times_manual idx w0 = (Raise e, with_clips clips w2)
          /\ nth_error (frames (with_clips clips w2)) (List.length (frames w2))
             = Some clips
          /\ fs (with_clips clips w2) = fs w2).
Proof.
  intros Hv Hclips Hwf Hn.
  split; [reflexivity|].
  split; [reflexivity|].
  split; [reflexivity|].
  split; [now apply (timestamp_clips_missing_start _ _ _ clips)|].
  split; [intros u rest Hu; now apply (timestamp_clips_missing_start_int _ _ _ clips u rest)|].
  intros record_id data start_times_df seizure_times_manual idx w0 w1 w2
         dataset_name channels_df annotations_df clips_df0 metadata_dict0 col v0
         Hd Hs Hc Hne Hcol Hv0 Hna.
  assert (Hnew : nth_error (frames (with_clips clips w2)) (List.length (frames w2))
                 = Some clips).
  { unfold with_clips; cbn [frames].
    rewrite nth_error_app2, Nat.sub_diag by lia; reflexivity. }
  destruct (timestamp_clips_missing_start (List.length (frames w2))
              (setitem "actual_start_time" PNone metadata_dict0)
              (with_clips clips w2) clips) as [e He]; auto.
  { apply assoc_setitem_same. }
  exists e; split; [|split; [exact Hnew|reflexivity]].
  rewrite (session_unfold _ _ _ _ _ _ _ _ _ _ _ _ _ _ Hd Hs Hc).
  now apply (finish_session_missing_start _ _ _ _ _ _ _ _ col v0).
Qed.

Lemma missing_start_time_raises_witness :
  @timestamp_clips iso8601_parser 0%nat
    [("dataset", PStr "HUP_demo_phaseII"); ("actual_start_time", PNone)]
    example_world
  = (Raise (Exception "ValueError" "NaTType does not support strftime"),
     example_world)
  /\ exists e,
       @_process_single_session (example_IEEGmetadata example_clips) iso8601_parser
         (PStr "sub-RID0572") (row example_sessions 0) (example_start_times PNaN)
         example_manual 2 empty_world
       = (Raise e, with_clips example_clips empty_world)
       /\ fs (with_clips example_clips empty_world) = mkFS [] [].
Proof.
  destruct (@missing_start_time_raises (example_IEEGmetadata example_clips)
              iso8601_parser 0%nat
              [("dataset", PStr "HUP_demo_phaseII"); ("actual_start_time", PNone)]
              example_world example_clips eq_refl eq_refl
              ltac:(repeat constructor) ltac:(repeat constructor))
    as [_ [_ [_ [_ [Hint Hsession]]]]].
  split.
  - apply (Hint 0 [PInt 28800000000; PInt 32400000000]); reflexivity.
  - destruct (Hsession (PStr "sub-RID0572") (row example_sessions 0)
                (example_start_times PNaN) example_manual 2%nat
                empty_world empty_world empty_world (PStr "HUP_demo_phaseII")
                example_channels example_annotations example_clips
                example_base_metadata [PNaN] PNaN
                eq_refl eq_refl eq_refl eq_refl eq_refl eq_refl eq_refl)
      as [e [Hrun [_ Hfs]]].
    exists e; split; [exact Hrun|exact Hfs].
Defined.

(** A session whose clips table has no rows. *)
Definition no_clips : DataFrame :=
  mkDataFrame (RangeIndex 0) [ ("start_time_usec", []); ("end_time_usec", []) ].

(** C1, on the code: the start-time table of the example subject is not
    empty and the cell the session reads is missing.  The session does
    not skip localisation: it stores [None] under [actual_start_time] and
    calls [timestamp_clips].  With clips, that call raises and the
    session writes nothing; with a clips table without rows the call
    returns, and the files show what was done: [metadata.txt] has the
    line [actual_start_time: None], [clips.csv] has the [timestamp] index
    and the [is_night] column. *)
Theorem missing_start_time_still_localizes :
  df_empty (example_start_times PNaN) = false
  /\ obind (iloc_column (example_start_times PNaN) 2) values_0 = Val PNaN
  /\ pd_isna PNaN = true
  /\ @_process_single_session (example_IEEGmetadata example_clips) iso8601_parser
       (PStr "sub-RID0572") (row example_sessions 0) (example_start_times PNaN)
       example_manual 2 empty_world
     = (Raise (Exception "ValueError" "NaTType does not support strftime"),
        mkWorld [example_clips] (mkFS [] []) [])
  /\ exists w',
       @_process_single_session (example_IEEGmetadata no_clips) iso8601_parser
         (PStr "sub-RID0572") (row example_sessions 0) (example_start_times PNaN)
         example_manual 2 empty_world
       = (Val tt, w')
       /\ read_file ["data"; "sub-RID0572"; "HUP_demo_phaseII"; "metadata.txt"] (fs w')
          = Some ("dataset: HUP_demo_phaseII" ++ newline
                    ++ "sample_rate: 512" ++ newline
                    ++ "actual_start_time: None" ++ newline)%string
       /\ read_file ["data"; "sub-RID0572"; "HUP_demo_phaseII"; "clips.csv"] (fs w')
          = Some (csv_text [["timestamp"; "start_time_usec"; "end_time_usec"; "is_night"]]).
Proof.
  split; [reflexivity|].
  split; [reflexivity|].
  split; [reflexivity|].
  split; [vm_compute; reflexivity|].
  eexists; split; [vm_compute; reflexivity|].
  split; vm_compute; reflexivity.
Qed.

(** ** The batch loop *)

(** What the loop does for one subject. *)
Definition process_one
  `{IEEGmetadata} `{ManualValidation} `{ArgSort} `{DatetimeParser}
  (subject : string) : M unit :=
  print ("Processing " ++ subject)%string ;;;
  try_except_Exception (process_subject_data subject) (fun e =>
    print ("Error processing " ++ subject ++ ": " ++ e)%string).

Lemma main_loop_cons
  `{IEEGmetadata} `{ManualValidation} `{ArgSort} `{DatetimeParser}
  (subject : string) (rest : list string) (w : World) :
  main_loop (subject :: rest) w = (process_one subject ;;; main_loop rest) w.
Proof. reflexivity. Qed.

Lemma process_one_failure
  `{IEEGmetadata} `{ManualValidation} `{ArgSort} `{DatetimeParser}
  (subject cls msg : string) (w w2 : World) :
  process_subject_data subject (snd (print ("Processing " ++ subject)%string w))
    = (Raise (Exception cls msg), w2) ->
  process_one subject w
  = (Val tt, snd (print ("Error processing " ++ subject ++ ": " ++ msg)%string w2)).
Proof.
  intros Hfail; unfold process_one, bind, try_except_Exception.
  cbn [print fst snd] in *.
  now rewrite Hfail.
Qed.

Lemma process_one_no_Exception
  `{IEEGmetadata} `{ManualValidation} `{ArgSort} `{DatetimeParser}
  (subject : string) (w w' : World) (e : exn) :
  process_one subject w = (Raise e, w') ->
  exists cls msg, e = BaseException cls msg.
Proof.
  unfold process_one, bind, try_except_Exception; cbn [print].
  destruct (process_subject_data subject _) as [[[]|[cls msg|cls msg]] w1];
    cbn [print]; intros [= <- <-] || intros [=].
  now exists cls, msg.
Qed.

Lemma main_loop_no_Exception
  `{IEEGmetadata} `{ManualValidation} `{ArgSort} `{DatetimeParser}
  (subjects : list string) (w w' : World) (e : exn) :
  main_loop subjects w = (Raise e, w') ->
  exists cls msg, e = BaseException cls msg.
Proof.
  revert w; induction subjects as [|s subjects IH]; intros w.
  - discriminate.
  - rewrite main_loop_cons; unfold bind at 1.
    destruct (process_one s w) as [[[]|e1] w1] eqn:Hone.
    + apply IH.
    + intros [= <- <-]. eapply process_one_no_Exception; eassumption.
Qed.

(** C9: in the batch loop, when the processing of a subject raises an
    exception, the loop prints one line with the subject and the message
    and goes on with the subjects after it, each processed in turn; no
    exception of class [Exception] leaves the loop. *)
Theorem main_loop_isolates_failures
  `{IEEGmetadata} `{ManualValidation} `{ArgSort} `{DatetimeParser}
  (before after : list string) (subject cls msg : string) (w w1 w2 : World) :
  main_loop before w = (Val tt, w1) ->
  process_subject_data subject (snd (print ("Processing " ++ subject)%string w1))
    = (Raise (Exception cls msg), w2) ->
  let reported :=
    snd (print ("Error processing " ++ subject ++ ": " ++ msg)%string w2) in
  main_loop (before ++ subject :: after) w = main_loop after reported
  /\ stdout reported
     = stdout w2 ++ [("Error processing " ++ subject ++ ": " ++ msg)%string]
  /\ frames reported = frames w2
  /\ fs reported = fs w2
  /\ (forall s rest w0,
        main_loop (s :: rest) w0 = (process_one s ;;; main_loop rest) w0)
  /\ (forall e w',
        main_loop (before ++ subject :: after) w = (Raise e, w') ->
        exists c m, e = BaseException c m).
Proof.
  intros Hbefore Hfail reported.
  split.
  { unfold main_loop at 1; rewrite for_each_app.
    fold (main_loop before); rewrite (bind_run _ _ _ _ _ Hbefore).
    fold (main_loop (subject :: after)); rewrite main_loop_cons.
    now rewrite (bind_run _ _ _ _ _ (process_one_failure _ _ _ _ _ Hfail)). }
  split; [reflexivity|].
  split; [reflexivity|].
  split; [reflexivity|].
  split; [intros; apply main_loop_cons|].
  intros e w'; apply main_loop_no_Exception.
Qed.

Lemma main_loop_isolates_failures_witness :
  exists w',
    @main_loop (example_IEEGmetadata example_clips)
      (example_ManualValidation (PStr "2023-01-01T10:00:00"))
      stable_argsort iso8601_parser ["sub-RID0000"; "sub-RID0572"] empty_world
    = (Val tt, w')
    /\ stdout w' = [ "Processing sub-RID0000";
                     "Error processing sub-RID0000: portal unreachable";
                     "Processing sub-RID0572" ]
    /\ read_file ["data"; "sub-RID0572"; "HUP_demo_phaseII"; "metadata.txt"] (fs w')
       = Some ("dataset: HUP_demo_phaseII" ++ newline
                 ++ "sample_rate: 512" ++ newline
                 ++ "actual_start_time: 2023-01-01T10:00:00" ++ newline)%string.
Proof.
  destruct (@main_loop_isolates_failures (example_IEEGmetadata example_clips)
              (example_ManualValidation (PStr "2023-01-01T10:00:00"))
              stable_argsort iso8601_parser
              [] ["sub-RID0572"] "sub-RID0000" "ConnectionError" "portal unreachable"
              empty_world empty_world
              (mkWorld [] (mkFS [] []) ["Processing sub-RID0000"])
              eq_refl eq_refl)
    as [Hloop _].
  cbn [app] in Hloop.
  eexists; split.
  - rewrite Hloop; vm_compute; reflexivity.
  - split; vm_compute; reflexivity.
Defined.

(** * Further properties of the code *)

(** ** The normaliser: what the sort decides and what it does not *)
























(** ** The localiser: failure, repetition, shape *)

(** X6: [timestamp_clips] is all or nothing: when it raises (no start
    time under the key, a start time that does not parse, no
    [start_time_usec] column, an offset that is not a number, a start
    time that is not-a-time), the table and the rest of the world are as
    they were; the index and [is_night] are assigned only after every
    clip has its label. *)
Theorem timestamp_clips_raise_unchanged `{DatetimeParser} (clips_df : ref)
  (metadata_dict : dict) (w w' : World) (e : exn) :
  timestamp_clips clips_df metadata_dict w = (Raise e, w') -> w' = w.
Proof.
  unfold timestamp_clips, bind, lift, getitem, read_frame, write_frame, ret.
  destruct (assoc "actual_start_time" metadata_dict) as [v|]; [|now intros [= _ <-]].
  destruct (to_datetime v) as [st|e1]; [|now intros [= _ <-]].
  destruct (nth_error (frames w) clips_df) as [df|]; [|now intros [= _ <-]].
  destruct (get_column "start_time_usec" df) as [col|]; [|now intros [= _ <-]].
  destruct (localize_loop st col [] []) as [r|e1]; [discriminate|now intros [= _ <-]].
Qed.

Lemma timestamp_clips_raise_unchanged_witness :
  snd (@timestamp_clips iso8601_parser 0%nat
         [("actual_start_time", PStr "next Tuesday")] example_world)
  = example_world.
Proof.
  apply (@timestamp_clips_raise_unchanged iso8601_parser 0%nat
           [("actual_start_time", PStr "next Tuesday")] example_world _
           (Exception "DateParseError"
              "Unknown datetime string format, unable to parse: next Tuesday")).
  reflexivity.
Defined.

Lemma setitem_twice {A : Type} (k : string) (v : A) (l : list (string * A)) :
  setitem k v (setitem k v l) = setitem k v l.
Proof.
  induction l as [|[k' v'] l IH]; simpl.
  - now rewrite String.eqb_refl.
  - destruct (String.eqb k k') eqn:E; simpl.
    + now rewrite String.eqb_refl.
    + now rewrite E, IH.
Qed.

Lemma update_nth_twice {A : Type} (r : nat) (x y : A) (l : list A) :
  update_nth r x (update_nth r y l) = update_nth r x l.
Proof.
  revert r; induction l as [|z l IH]; intros [|r]; simpl; auto.
  now rewrite IH.
Qed.

Lemma localized_frame_twice (rs : list (string * bool)) (df : DataFrame) :
  localized_frame rs (localized_frame rs df) = localized_frame rs df.
Proof.
  unfold localized_frame, set_column, set_index; cbn [df_index df_columns].
  now rewrite setitem_twice.
Qed.

(** X7: localising a table that is already localised changes nothing:
    a second call with the same metadata returns the same table in the
    same state, the labels and [is_night] being computed from
    [start_time_usec], which the first call left alone. *)
Theorem timestamp_clips_idempotent `{DatetimeParser} (clips_df : ref)
  (metadata_dict : dict) (w w' : World) (r : ref) :
  timestamp_clips clips_df metadata_dict w = (Val r, w') ->
  timestamp_clips r metadata_dict w' = (Val r, w').
Proof.
  intros Hrun.
  apply timestamp_clips_Val in Hrun
    as [v [st [df [col [rs [Hv [Hst [Hdf [Hcol [Hrs [-> ->]]]]]]]]]]].
  rewrite (timestamp_clips_run clips_df metadata_dict _ v st
             (localized_frame rs df) col rs); auto.
  - cbn [frames fs stdout].
    now rewrite update_nth_twice, localized_frame_twice.
  - cbn [frames]; apply nth_error_update_nth_same.
    eapply nth_error_in_range; eassumption.
  - unfold localized_frame, set_column, set_index, get_column; cbn [df_columns].
    rewrite assoc_setitem_other by discriminate; exact Hcol.
Qed.

Lemma timestamp_clips_idempotent_witness :
  @timestamp_clips iso8601_parser 0%nat example_metadata
    (snd (@timestamp_clips iso8601_parser 0%nat example_metadata example_world))
  = (Val 0%nat,
     snd (@timestamp_clips iso8601_parser 0%nat example_metadata example_world)).
Proof.
  apply (@timestamp_clips_idempotent iso8601_parser 0%nat example_metadata
           example_world).
  vm_compute; reflexivity.
Defined.

Lemma Forall_setitem {A : Type} (P : string * A -> Prop) (k : string) (v : A)
  (l : list (string * A)) :
  P (k, v) -> Forall P l -> Forall P (setitem k v l).
Proof.
  intros Hkv Hl; induction Hl as [|[k' v'] l Hc Hl IH]; simpl.
  - now constructor.
  - destruct (String.eqb k k'); constructor; auto.
Qed.

Lemma Forall2_same_length {A B : Type} (R : A -> B -> Prop) (l : list A) (l' : list B) :
  Forall2 R l l' -> List.length l = List.length l'.
Proof. induction 1; simpl; auto. Qed.

(** X8: localisation keeps the table well formed and its number of rows:
    on a clips table with one value per row in every column, the new
    index has one label per row and [is_night] one flag per row. *)
Theorem timestamp_clips_keeps_shape `{DatetimeParser} (clips_df : ref)
  (metadata_dict : dict) (w w' : World) (r : ref) (df : DataFrame) :
  timestamp_clips clips_df metadata_dict w = (Val r, w') ->
  nth_error (frames w) clips_df = Some df ->
  well_formed df ->
  exists df',
    nth_error (frames w') clips_df = Some df'
    /\ nrows df' = nrows df
    /\ well_formed df'
    /\ (exists flags, get_column "is_night" df' = Some flags
                      /\ List.length flags = nrows df).
Proof.
  intros Hrun Hdf Hwf.
  apply timestamp_clips_Val in Hrun
    as [v [st [df0 [col [rs [Hv [Hst [Hdf0 [Hcol [Hrs [-> ->]]]]]]]]]]].
  assert (df0 = df) by congruence; subst df0.
  assert (Hlen : List.length rs = nrows df).
  { rewrite <- (Forall2_same_length _ _ _ (localize_all_Val _ _ _ Hrs)).
    now apply (column_length df "start_time_usec"). }
  exists (localized_frame rs df).
  assert (Hn : nrows (localized_frame rs df) = nrows df).
  { unfold localized_frame, set_column, set_index, nrows.
    cbn [df_index idx_labels]. now rewrite !length_map. }
  split.
  { cbn [frames]; apply nth_error_update_nth_same.
    eapply nth_error_in_range; eassumption. }
  split; [exact Hn|].
  split.
  - unfold well_formed; rewrite Hn.
    unfold localized_frame, set_column, set_index; cbn [df_columns].
    apply Forall_setitem; [cbn [snd]; now rewrite !length_map|exact Hwf].
  - eexists; split.
    + unfold localized_frame, set_column, get_column; cbn [df_columns].
      apply assoc_setitem_same.
    + now rewrite !length_map.
Qed.

Lemma timestamp_clips_keeps_shape_witness :
  exists df',
    nth_error
      (frames (snd (@timestamp_clips iso8601_parser 0%nat example_metadata
                      example_world))) 0%nat = Some df'
    /\ nrows df' = nrows example_clips
    /\ well_formed df'
    /\ (exists flags, get_column "is_night" df' = Some flags
                      /\ List.length flags = nrows example_clips).
Proof.
  apply (@timestamp_clips_keeps_shape iso8601_parser 0%nat example_metadata
           example_world _ 0%nat example_clips).
  - vm_compute; reflexivity.
  - reflexivity.
  - repeat constructor.
Defined.





(** X10: the day number is floored and the clock is truncated, so an
    offset less than a second before the origin is labelled [Day 0] at
    the start's own time of day. *)
Theorem localize_just_before_origin (start_time u : Z) :
  -1000000 < u < 0 ->
  localize_clip (Timestamp start_time) (PInt u)
  = Val (("Day 0 " ++ HMS start_time)%string, spec_is_night start_time).
Proof.
  intros Hu.
  rewrite localize_clip_int; unfold day_str, current_time, Timedelta_seconds.
  assert (Hq : u ÷ 1000000 = 0).
  { rewrite <- (Z.opp_involutive u), Z.quot_opp_l by lia.
    rewrite Z.quot_small by lia; reflexivity. }
  assert (Hd : u / 86400000000 = -1).
  { symmetry; apply (Z.div_unique u 86400000000 (-1) (u + 86400000000)); lia. }
  rewrite Hq, Hd, Z.add_0_r.
  reflexivity.
Qed.

Lemma localize_just_before_origin_witness :
  localize_clip (Timestamp (epoch_ns 2023 1 1 10 0 0)) (PInt (-1))
  = Val ("Day 0 10:00:00", false).
Proof.
  apply (localize_just_before_origin (epoch_ns 2023 1 1 10 0 0) (-1)); lia.
Defined.

(** ** One session: the other branches *)



Lemma nth_error_new_frame (clips : DataFrame) (w : World) :
  nth_error (frames (with_clips clips w)) (List.length (frames w)) = Some clips.
Proof.
  unfold with_clips; cbn [frames].
  rewrite nth_error_app2, Nat.sub_diag by lia; reflexivity.
Qed.








(** X13: the session whose position is [idx] needs the start-time table
    to have a column at position [idx]; when a table that is not empty
    has no such column the session raises [IndexError] after the clips
    are derived, and localises and writes nothing. *)
Theorem session_index_out_of_bounds `{IEEGmetadata} `{DatetimeParser}
  (record_id dataset_name : pyval) (data : dict)
  (start_times_df seizure_times_manual : DataFrame)
  (idx : nat) (w w1 w2 : World)
  (channels_df annotations_df clips_df clips : DataFrame) (metadata_dict : dict) :
  getitem data "ieegportalsubjno" = Val dataset_name ->
  save_metadata record_id dataset_name w
    = (Val (channels_df, annotations_df, metadata_dict, clips_df), w1) ->
  _ieeg_clips (pd_concat_ignore_index annotations_df seizure_times_manual)
    metadata_dict w1 = (Val clips, w2) ->
  df_empty start_times_df = false ->
  (List.length (df_columns start_times_df) <= idx)%nat ->
  _process_single_session record_id data start_times_df seizure_times_manual idx w
  = (Raise (Exception "IndexError" "single positional indexer is out-of-bounds"),
     with_clips clips w2)
  /\ nth_error (frames (with_clips clips w2)) (List.length (frames w2)) = Some clips
  /\ fs (with_clips clips w2) = fs w2.
Proof.
  intros Hd Hs Hc Hne Hidx.
  split; [|split; [apply nth_error_new_frame|reflexivity]].
  rewrite (session_unfold _ _ _ _ _ _ _ _ _ _ _ _ _ _ Hd Hs Hc).
  unfold finish_session; rewrite Hne; cbn [negb].
  unfold bind at 1. unfold bind at 1, lift at 1, iloc_column.
  apply nth_error_None in Hidx; rewrite Hidx.
  reflexivity.
Qed.

Lemma session_index_out_of_bounds_witness :
  @_process_single_session (example_IEEGmetadata example_clips) iso8601_parser
    (PStr "sub-RID0572") (row example_sessions 0)
    (example_start_times (PStr "2023-01-01T10:00:00")) example_manual 3
    empty_world
  = (Raise (Exception "IndexError" "single positional indexer is out-of-bounds"),
     with_clips example_clips empty_world).
Proof.
  apply (@session_index_out_of_bounds (example_IEEGmetadata example_clips)
           iso8601_parser (PStr "sub-RID0572") (PStr "HUP_demo_phaseII")
           (row example_sessions 0)
           (example_start_times (PStr "2023-01-01T10:00:00")) example_manual 3
           empty_world empty_world empty_world example_channels
           example_annotations example_clips example_clips example_base_metadata
           eq_refl eq_refl eq_refl eq_refl).
  simpl; lia.
Defined.

(** ** The writer: what it touches and what it refuses *)





(** X15: the writer refuses a record id or a dataset name that is not a
    string (a missing dataset name in the session row, say) with a
    [TypeError], before it makes the directory: nothing is written. *)
Theorem writer_refuses_non_strings (record_id dataset_name : pyval)
  (annotations : DataFrame) (clips_ref : ref) (d : dict) (path_to_save : Path)
  (w : World) :
  (forall s, record_id <> PStr s) \/ (forall s, dataset_name <> PStr s) ->
  exists msg,
    save_validated_metadata record_id dataset_name annotations clips_ref d
      path_to_save w = (Raise (Exception "TypeError" msg), w).
Proof.
  intros Hbad; eexists.
  unfold save_validated_metadata, session_dir, bind, lift.
  destruct record_id as [| | |?|r]; try reflexivity.
  destruct dataset_name as [| | |?|n]; try reflexivity.
  exfalso; destruct Hbad as [Hbad|Hbad]; [apply (Hbad r)|apply (Hbad n)]; reflexivity.
Qed.

Lemma writer_refuses_non_strings_witness :
  exists msg,
    save_validated_metadata (PStr "sub-RID0572") PNaN example_annotations 0%nat
      example_metadata default_path_to_save example_world
    = (Raise (Exception "TypeError" msg), example_world).
Proof.
  apply writer_refuses_non_strings.
  right; intros s; discriminate.
Defined.

(** ** One subject and the batch *)

Lemma enumerate_app {A : Type} (xs ys : list A) (k : nat) :
  enumerate (xs ++ ys) k = enumerate xs k ++ enumerate ys (k + List.length xs).
Proof.
  unfold enumerate; revert k; induction xs as [|x xs IH]; intros k; simpl.
  - now rewrite Nat.add_0_r.
  - f_equal. rewrite length_app in IH. rewrite length_app, IH.
    now rewrite Nat.add_succ_r.
Qed.

(** X16: within a subject the sessions are processed in row order, the
    session at row [j] with positional index [j + 2], all with the same
    start-time table and the same manual annotations; nothing catches an
    exception there, so when a session raises the subject ends with that
    exception and the sessions after it are not processed. *)
Theorem subject_stops_at_failing_session
  `{IEEGmetadata} `{ManualValidation} `{ArgSort} `{DatetimeParser}
  (subject_id : string) (w w1 w2 w3 w4 w5 w6 : World)
  (redcap ieeg_data_df start_times_df : DataFrame)
  (events : list RawSeizureEvent)
  (before after : list (pyval * dict)) (record_id : pyval) (data : dict)
  (e : exn) :
  get_redcap_data [subject_id] w = (Val redcap, w1) ->
  expand_ieeg_days_rows redcap w1 = (Val ieeg_data_df, w2) ->
  get_actual_start_times [subject_id] w2 = (Val start_times_df, w3) ->
  get_seizure_times [subject_id] w3 = (Val events, w4) ->
  iterrows ieeg_data_df = before ++ (record_id, data) :: after ->
  let manual := take_rows (argsort (start_usecs events)) (annotations_frame events) in
  for_each (enumerate before 2) (fun it =>
    _process_single_session (fst (snd it)) (snd (snd it))
      start_times_df manual (fst it)) w4 = (Val tt, w5) ->
  _process_single_session record_id data start_times_df manual
    (2 + List.length before) w5 = (Raise e, w6) ->
  process_subject_data subject_id w = (Raise e, w6).
Proof.
  intros Hr He Hst Hev Hrows manual Hbefore Hfail.
  unfold process_subject_data.
  rewrite (bind_run _ _ _ _ _ Hr), (bind_run _ _ _ _ _ He),
    (bind_run _ _ _ _ _ Hst), (bind_run _ _ _ _ _ Hev).
  unfold bind at 1, lift at 1.
  rewrite process_seizure_annotations_eq; fold manual.
  rewrite Hrows, enumerate_app, for_each_app.
  rewrite (bind_run _ _ _ _ _ Hbefore).
  unfold enumerate; cbn [List.length seq combine for_each fst snd].
  unfold bind at 1; now rewrite Hfail.
Qed.

(** A subject with two recording days, for whom the start-time table has
    a column for the first day only. *)
Definition two_day_sessions : DataFrame :=
  mkDataFrame (mkIndex (Some "record_id") [PStr "sub-RID0572"; PStr "sub-RID0572"])
    [ ("ieegportalsubjno", [PStr "HUP_demo_phaseII_D01"; PStr "HUP_demo_phaseII_D02"]);
      ("ieeg_days", [PInt 1; PInt 2]) ].

Definition two_day_IEEGmetadata : IEEGmetadata :=
  mkIEEGmetadata
    (fun _ => ret two_day_sessions)
    (fun df => ret df)
    (fun _ _ => ret (example_channels, example_annotations,
                     example_base_metadata, example_clips))
    (fun _ _ => ret example_clips).

Lemma subject_stops_at_failing_session_witness :
  exists w6,
    @process_subject_data two_day_IEEGmetadata
      (example_ManualValidation (PStr "2023-01-01T10:00:00"))
      stable_argsort iso8601_parser "sub-RID0572" empty_world
    = (Raise (Exception "IndexError" "single positional indexer is out-of-bounds"), w6)
    /\ read_file ["data"; "sub-RID0572"; "HUP_demo_phaseII_D02"; "metadata.txt"] (fs w6)
       = None.
Proof.
  set (first_day :=
         @_process_single_session two_day_IEEGmetadata iso8601_parser
           (PStr "sub-RID0572") (row two_day_sessions 0)
           (example_start_times (PStr "2023-01-01T10:00:00")) example_manual 2
           empty_world).
  set (second_day :=
         @_process_single_session two_day_IEEGmetadata iso8601_parser
           (PStr "sub-RID0572") (row two_day_sessions 1)
           (example_start_times (PStr "2023-01-01T10:00:00")) example_manual 3
           (snd first_day)).
  assert (H1 : @for_each (nat * (pyval * dict))
                 (enumerate [(PStr "sub-RID0572", row two_day_sessions 0)] 2)
                 (fun it =>
                    @_process_single_session two_day_IEEGmetadata iso8601_parser
                      (fst (snd it)) (snd (snd it))
                      (example_start_times (PStr "2023-01-01T10:00:00"))
                      (take_rows (@argsort stable_argsort (start_usecs example_events))
                         (annotations_frame example_events))
                      (fst it)) empty_world
               = (Val tt, snd first_day))
    by (vm_compute; reflexivity).
  assert (H2 : @_process_single_session two_day_IEEGmetadata iso8601_parser
                 (PStr "sub-RID0572") (row two_day_sessions 1)
                 (example_start_times (PStr "2023-01-01T10:00:00"))
                 (take_rows (@argsort stable_argsort (start_usecs example_events))
                    (annotations_frame example_events))
                 (2 + 1) (snd first_day)
               = (Raise (Exception "IndexError"
                           "single positional indexer is out-of-bounds"),
                  snd second_day))
    by (vm_compute; reflexivity).
  exists (snd second_day); split.
  - apply (@subject_stops_at_failing_session two_day_IEEGmetadata
             (example_ManualValidation (PStr "2023-01-01T10:00:00"))
             stable_argsort iso8601_parser "sub-RID0572"
             empty_world empty_world empty_world empty_world empty_world
             (snd first_day) (snd second_day)
             two_day_sessions two_day_sessions
             (example_start_times (PStr "2023-01-01T10:00:00")) example_events
             [(PStr "sub-RID0572", row two_day_sessions 0)] []
             (PStr "sub-RID0572") (row two_day_sessions 1) _
             eq_refl eq_refl eq_refl eq_refl eq_refl H1 H2).
  - vm_compute; reflexivity.
Defined.

(** X17: the batch loop catches [Exception] only.  When the processing
    of a subject returns, the loop prints nothing more for it and goes
    on; when it raises anything that is not an [Exception]
    ([KeyboardInterrupt], [SystemExit]), the loop ends with it: no error
    line, and the subjects after it are not processed. *)
Theorem main_loop_other_outcomes
  `{IEEGmetadata} `{ManualValidation} `{ArgSort} `{DatetimeParser}
  (before after : list string) (subject : string) (w w1 w2 : World)
  (o : outcome unit) :
  main_loop before w = (Val tt, w1) ->
  process_subject_data subject (snd (print ("Processing " ++ subject)%string w1))
    = (o, w2) ->
  (forall cls msg, o <> Raise (Exception cls msg)) ->
  main_loop (before ++ subject :: after) w
  = match o with
    | Val _ => main_loop after w2
    | Raise e => (Raise e, w2)
    end.
Proof.
  intros Hbefore Hrun Hother.
  unfold main_loop at 1; rewrite for_each_app.
  fold (main_loop before); rewrite (bind_run _ _ _ _ _ Hbefore).
  fold (main_loop (subject :: after)); rewrite main_loop_cons.
  unfold bind at 1, process_one, bind, try_except_Exception.
  cbn [print fst snd] in *; rewrite Hrun.
  destruct o as [[]|[cls msg|cls msg]]; try reflexivity.
  exfalso; now apply (Hother cls msg).
Qed.

(** The operator interrupts the run while the first subject is fetched. *)
Definition interrupted_IEEGmetadata : IEEGmetadata :=
  mkIEEGmetadata
    (fun _ => raise (BaseException "KeyboardInterrupt" ""))
    (fun df => ret df)
    (fun _ _ => ret (example_channels, example_annotations,
                     example_base_metadata, example_clips))
    (fun _ _ => ret example_clips).

Lemma main_loop_other_outcomes_witness :
  @main_loop interrupted_IEEGmetadata
    (example_ManualValidation (PStr "2023-01-01T10:00:00"))
    stable_argsort iso8601_parser ["sub-RID0001"; "sub-RID0572"] empty_world
  = (Raise (BaseException "KeyboardInterrupt" ""),
     mkWorld [] (mkFS [] []) ["Processing sub-RID0001"]).
Proof.
  apply (@main_loop_other_outcomes interrupted_IEEGmetadata
           (example_ManualValidation (PStr "2023-01-01T10:00:00"))
           stable_argsort iso8601_parser [] ["sub-RID0572"] "sub-RID0001"
           empty_world empty_world
           (mkWorld [] (mkFS [] []) ["Processing sub-RID0001"])
           (Raise (BaseException "KeyboardInterrupt" "")) eq_refl eq_refl).
  intros cls msg; discriminate.
Defined.

(** ** A subject without manual seizures *)



